(** * Transport routing of the poll client (src/realtime-poll/src/apollo.js)

    The module builds two endpoint URIs from the page protocol, a
    classifier [splitter] over outgoing operations, and a composed link
    that sends every operation to the WebSocket link or to the HTTP link.
    This file embeds those definitions and proves the routing contract,
    then does the same for the components listed in README.md that use
    the client: the vote form, the poll list and the result chart. *)

From Stdlib Require Import ZArith.
From stdpp Require Import base option strings gmap list.

Open Scope string_scope.

(** ** JavaScript values

    The fragment of JavaScript values a parsed GraphQL document is built
    from: undefined, null, booleans, integer numbers, strings, arrays and
    plain objects (string-keyed property maps). *)

#[warnings="-register-all"]
Inductive value : Type :=
| VUndefined
| VNull
| VBool (b : bool)
| VNum (n : Z)
| VStr (s : string)
| VArr (items : list value)
| VObj (props : gmap string value).

(** Truthiness, as the operands of [||] and [?:] are tested. *)
Definition truthy (v : value) : bool :=
  match v with
  | VUndefined | VNull => false
  | VBool b => b
  | VNum n => negb (n =? 0)%Z
  | VStr s => negb (String.eqb s "")
  | VArr _ | VObj _ => true
  end.

(** [a || b]: the left operand when it is truthy, else the right one. *)
Definition js_or (a b : value) : value := if truthy a then a else b.

(** [v === "lit"] for a string literal: true only for that very string. *)
Definition strict_eq_str (v : value) (lit : string) : bool :=
  match v with
  | VStr s => String.eqb s lit
  | _ => false
  end.

(** The empty object literal [{}]. *)
Definition empty_object : value := VObj ∅.

(** ** Completion of a JavaScript computation: a value or a throw. *)

Inductive exn : Type :=
| TypeError
| Thrown (payload : value).

Inductive outcome (A : Type) : Type :=
| Returns (a : A)
| Throws (e : exn).
Arguments Returns {A} a.
Arguments Throws {A} e.

Definition obind {A B} (m : outcome A) (k : A -> outcome B) : outcome B :=
  match m with
  | Returns a => k a
  | Throws e => Throws e
  end.

Notation "'let*' x ':=' m 'in' k" := (obind m (fun x => k))
  (at level 10, x name, m at level 100, k at level 200).

(** Reading property [k] in an object pattern [const { k } = v]: a throw
    of TypeError when [v] is null or undefined, the own property of an
    object, and undefined otherwise.  The source reads only [kind] and
    [operation], which no prototype, string or array defines. *)
Definition get_prop (v : value) (k : string) : outcome value :=
  match v with
  | VUndefined | VNull => Throws TypeError
  | VObj props => Returns (default VUndefined (props !! k))
  | _ => Returns VUndefined
  end.

(** ** Endpoint derivation (apollo.js, lines 7-13) *)

Definition GRAPHQL_ENDPOINT : string := "genuine-macaw-22.hasura.app".

Section Endpoints.
(** [window.location.protocol] of the hosting page. *)
Variable location_protocol : string.

(** [const scheme = (proto) =>
      window.location.protocol === "https:" ? `${proto}s` : proto] *)
Definition scheme (proto : string) : string :=
  if String.eqb location_protocol "https:" then proto +:+ "s" else proto.

(** The two URI templates, over the host name they are instantiated
    with ([GRAPHQL_ENDPOINT] in the module). *)
Definition wsURI_at (host : string) : string :=
  scheme "ws" +:+ "://" +:+ host +:+ "/v1/graphql".

Definition httpURL_at (host : string) : string :=
  scheme "https" +:+ "://" +:+ host +:+ "/v1/graphql".

Definition wsURI : string := wsURI_at GRAPHQL_ENDPOINT.
Definition httpURL : string := httpURL_at GRAPHQL_ENDPOINT.
End Endpoints.

(** ** Operations and links

    An operation as the link chain receives it: the parsed document
    [query] and the runtime data that travel with it.  Request headers
    live in [context]. *)

Record Operation : Type := mkOperation {
  query : value;
  variables : value;
  operationName : value;
  extensions : value;
  context : value;
}.

(** The two transports, and the record of one operation sent to one
    endpoint.  A link is abstracted to the sends it performs. *)
Inductive Transport : Type := STREAMING | REQUEST_RESPONSE.

Record Dispatch : Type := mkDispatch {
  via : Transport;
  endpoint : string;
  sent : Operation;
}.

Definition Link : Type := Operation -> outcome (list Dispatch).

(** [new GraphQLWsLink(createClient({ url, ... }))] and
    [new HttpLink({ uri })]: each sends the operation to its own URI. *)
Definition GraphQLWsLink (url : string) : Link :=
  fun op => Returns [mkDispatch STREAMING url op].

Definition HttpLink (uri : string) : Link :=
  fun op => Returns [mkDispatch REQUEST_RESPONSE uri op].

(** [split(test, left, right)] of the client library: the operation goes
    to [left] when [test] holds of it and to [right] otherwise. *)
Definition split (test : Operation -> outcome bool) (left right : Link) : Link :=
  fun op => let* b := test op in if b then left op else right op.

Section Router.
(** [getMainDefinition] of the client library is not part of the
    module: it is a parameter, a call that returns a value or throws. *)
Variable getMainDefinition : value -> outcome value.
Variable location_protocol : string.

(** [const splitter = ({ query }) => {
      const { kind, operation } = getMainDefinition(query) || {};
      const isSubscription =
        kind === "OperationDefinition" && operation === "subscription";
      return isSubscription; }] *)
Definition splitter (op : Operation) : outcome bool :=
  let* found := getMainDefinition (query op) in
  let definition := js_or found empty_object in
  let* kind := get_prop definition "kind" in
  let* operation := get_prop definition "operation" in
  let isSubscription :=
    strict_eq_str kind "OperationDefinition"
    && strict_eq_str operation "subscription" in
  Returns isSubscription.

(** [const options = { reconnect: true }] and the argument of
    [createClient]: [{ url: wsURI, connectionParams: { options } }]. *)
Definition options : value := VObj {[ "reconnect" := VBool true ]}.

Definition clientOptions : value :=
  VObj (<[ "url" := VStr (wsURI location_protocol) ]>
        {[ "connectionParams" := VObj {[ "options" := options ]} ]}).

Definition wsLink : Link := GraphQLWsLink (wsURI location_protocol).
Definition httpLink : Link := HttpLink (httpURL location_protocol).

(** [const link = split(splitter, wsLink, httpLink)] *)
Definition link : Link := split splitter wsLink httpLink.
End Router.

(** ** Sample documents

    A stand-in for the library lookup, to run the router on concrete
    documents: the first entry of the document's [definitions] array,
    null when the array is empty, and a throw when there is no array. *)
Definition firstDefinition (doc : value) : outcome value :=
  match doc with
  | VObj props =>
      match props !! "definitions" with
      | Some (VArr (d :: _)) => Returns d
      | Some (VArr []) => Returns VNull
      | _ => Throws (Thrown (VStr "not a document"))
      end
  | _ => Throws (Thrown (VStr "not a document"))
  end.

Definition operationDefinition (operation name : string) : value :=
  VObj (<[ "kind" := VStr "OperationDefinition" ]>
        (<[ "operation" := VStr operation ]>
         {[ "name" := VStr name ]})).

Definition document (definitions : list value) : value :=
  VObj (<[ "kind" := VStr "Document" ]>
        {[ "definitions" := VArr definitions ]}).

Definition operationOf (doc vars : value) : Operation :=
  mkOperation doc vars VUndefined empty_object empty_object.

Definition subscriptionDoc : value :=
  document [operationDefinition "subscription" "getResult"].
Definition queryDoc : value :=
  document [operationDefinition "query" "getPoll"].
Definition onlineUsersDoc : value :=
  document [operationDefinition "subscription" "getOnlineUsersCount"].
Definition emptyDoc : value := document [].

(** ** Document shape

    The shape of a main definition, stated on the document alone: the
    field [k] of the definition [d], undefined when [d] is no object or
    has no such field. *)
Definition definition_field (d : value) (k : string) : value :=
  match d with
  | VObj props => default VUndefined (props !! k)
  | _ => VUndefined
  end.

(** [d] is an object whose kind is "OperationDefinition" and whose
    declared operation type is "subscription". *)
Definition is_subscription_definition (d : value) : Prop :=
  exists props,
    d = VObj props /\
    props !! "kind" = Some (VStr "OperationDefinition") /\
    props !! "operation" = Some (VStr "subscription").

Definition shape_is_subscription (d : value) : bool :=
  strict_eq_str (definition_field d "kind") "OperationDefinition"
  && strict_eq_str (definition_field d "operation") "subscription".

(** Some transport [t] appears among the sends of a completed request. *)
Definition uses (t : Transport) (r : outcome (list Dispatch)) : Prop :=
  exists sends, r = Returns sends /\ exists d, d ∈ sends /\ via d = t.

(** ** The components that use the client (README.md)

    README.md lists the components' code.  Their hooks hand them an
    object with the fields [data], [loading] and [error]; what they
    return is kept as the element they build. *)

Definition nullish (v : value) : bool :=
  match v with
  | VUndefined | VNull => true
  | _ => false
  end.

(** The own property [k] of [v], undefined when [v] has none. *)
Definition own_property (v : value) (k : string) : value :=
  match v with
  | VObj props => default VUndefined (props !! k)
  | _ => VUndefined
  end.

(** Member access [v.k], for the keys read below ([id], [poll],
    [poll_results], [option], [votes], [text], [value], [message]): it
    throws on null and undefined like the object pattern does. *)
Definition member (v : value) (k : string) : outcome value := get_prop v k.

(** [array.map(f)] with a callback that may throw: entries are visited in
    order and the first throw ends the call. *)
Fixpoint mapM {A B : Type} (f : A -> outcome B) (l : list A) : outcome (list B) :=
  match l with
  | [] => Returns []
  | x :: rest =>
      let* y := f x in
      let* ys := mapM f rest in
      Returns (y :: ys)
  end.

Record HookResult : Type := mkHookResult {
  data : value;
  loading : value;
  error : value;
}.

(** The children of one poll in [Poll]: the wrapper's key, the props of
    [PollQuestion] and the prop of [Result]. *)
Record PollEntry : Type := mkPollEntry {
  entry_key : value;
  question_poll : value;
  question_userId : value;
  result_pollId : value;
}.

Inductive View : Type :=
| Loading
| Error (message : value)
| PollList (children : option (list PollEntry))
| Chart (chart_data : value)
| NoResult.

(** *** PollChart (README.md, lines 387-406) *)

Definition COLOR : string := "color: #4285f4".

Definition chartHeader : value :=
  VArr [VStr "Option"; VStr "No. of votes";
        VObj {[ "role" := VStr "annotation" ]};
        VObj {[ "role" := VStr "style" ]}].

Section Components.
(** The global [parseInt], on the values at hand. *)
Variable parseInt : value -> value.
(** The comparison [v > 0] on strings, arrays and objects, which the
    language first converts to a number. *)
Variable coerced_gt_zero : value -> bool.

(** [({ option, votes }) =>
       d.push([option.text, parseInt(votes), parseInt(votes), COLOR])] *)
Definition chartRow (entry : value) : outcome value :=
  let* option_ := get_prop entry "option" in
  let* votes := get_prop entry "votes" in
  let* text := member option_ "text" in
  Returns (VArr [text; parseInt votes; parseInt votes; VStr COLOR]).

(** [data.forEach(...)] over the rows [d] pushed so far. *)
Fixpoint forEach_push (d : list value) (items : list value) : outcome (list value) :=
  match items with
  | [] => Returns d
  | entry :: rest =>
      let* row := chartRow entry in
      forEach_push (d ++ [row]) rest
  end.

(** [PollChart]: the rows [d] handed to the chart.  [data.forEach] is a
    TypeError unless [data] is an array. *)
Definition PollChart (data : value) : outcome (list value) :=
  match data with
  | VArr items => forEach_push [chartHeader] items
  | _ => Throws TypeError
  end.

(** *** Result (README.md, lines 370-385) *)

(** [v > 0]. *)
Definition gt_zero (v : value) : bool :=
  match v with
  | VUndefined | VNull => false
  | VBool b => b
  | VNum n => (0 <? n)%Z
  | other => coerced_gt_zero other
  end.

(** [v.length > 0]: a TypeError on null and undefined; the number of
    entries of an array and of code units of a string, positive when
    there is one; the own [length] property of an object; undefined on a
    boolean or a number. *)
Definition length_gt_zero (v : value) : outcome bool :=
  match v with
  | VUndefined | VNull => Throws TypeError
  | VArr items => Returns (match items with [] => false | _ :: _ => true end)
  | VStr s => Returns (negb (String.eqb s ""))
  | VObj props => Returns (gt_zero (default VUndefined (props !! "length")))
  | VBool _ | VNum _ => Returns (gt_zero VUndefined)
  end.

(** [data?.poll_results] *)
Definition optional_poll_results (data : value) : outcome value :=
  if nullish data then Returns VUndefined else member data "poll_results".

(** [const hasResults = data?.poll_results.length > 0;
     if (loading) return <Loading />;
     if (error) return <Error message={error.message} />;
     return <div>{hasResults ? <PollChart data={data?.poll_results} />
                             : <p>No result</p>}</div>] *)
Definition Result (pollId : value) (r : HookResult) : outcome View :=
  let* hasResults :=
    (if nullish (data r) then Returns (gt_zero VUndefined)
     else let* results := member (data r) "poll_results" in
          length_gt_zero results) in
  if truthy (loading r) then Returns Loading
  else if truthy (error r) then
    let* message := member (error r) "message" in Returns (Error message)
  else if hasResults : bool then
    let* results := optional_poll_results (data r) in Returns (Chart results)
  else Returns NoResult.

(** *** Poll (README.md, lines 336-358) *)

(** The callback of [data?.poll.map]. *)
Definition pollEntry (userId : value) (poll : value) : outcome PollEntry :=
  let* key := member poll "id" in
  let* pollId := member poll "id" in
  Returns (mkPollEntry key poll userId pollId).

(** [if (loading) return <Loading />;
     if (error) return <Error message={error.message} />;
     return <div>{data?.poll.map((poll) => ...)}</div>];
    [.map] is a TypeError unless [data.poll] is an array. *)
Definition Poll (userId : value) (r : HookResult) : outcome View :=
  if truthy (loading r) then Returns Loading
  else if truthy (error r) then
    let* message := member (error r) "message" in Returns (Error message)
  else if nullish (data r) then Returns (PollList None)
  else
    let* polls := member (data r) "poll" in
    match polls with
    | VArr items =>
        let* entries := mapM (pollEntry userId) items in
        Returns (PollList (Some entries))
    | _ => Throws TypeError
    end.
End Components.

(** *** PollQuestion (README.md, lines 239-334)

    The component state is the object kept by [useState]; the setter
    given an object replaces the state by it, and given a function
    replaces it by the function's result on the previous state.  A
    handler is kept as the state it leaves behind and the calls it makes.
    String literals are kept as their UTF-8 bytes. *)

Record FormEvent : Type := mkFormEvent {
  currentTarget : value;
}.

Inductive Effect : Type :=
| PreventDefault
| Vote (argument : value)
| SetTimeout (then_state : gmap string value) (ms : Z).

(** [{ voteBtnText: text, voteBtnStyle: style }] *)
Definition buttonState (text style : string) : gmap string value :=
  <[ "voteBtnText" := VStr text ]> {[ "voteBtnStyle" := VStr style ]}.

Definition defaultState (poll : value) : outcome (gmap string value) :=
  let* pollId := member poll "id" in
  Returns (<[ "optionId" := VStr "" ]>
           (<[ "pollId" := pollId ]> (buttonState "🗳 Vote" "primary"))).

(** [const optionId = e.currentTarget.value;
     setState((prev) => ({ ...prev, optionId }))] *)
Definition handleOptionChange (state : gmap string value) (e : FormEvent)
  : outcome (gmap string value * list Effect) :=
  let* optionId := member (currentTarget e) "value" in
  Returns (<[ "optionId" := optionId ]> state, []).

(** [e.preventDefault();
     if (!state.optionId) { setState({ ...warning }); return; }
     setState({ ...submitting });
     vote({ variables: { optionId: state.optionId, userId } })] *)
Definition handlesubmitVote (userId : value) (state : gmap string value)
  (e : FormEvent) : gmap string value * list Effect :=
  let optionId := default VUndefined (state !! "optionId") in
  if negb (truthy optionId) then
    (buttonState "✋ Select an option and try again" "warning", [PreventDefault])
  else
    (buttonState "🗳️ Submitting" "info",
     [PreventDefault;
      Vote (VObj {[ "variables" :=
              VObj (<[ "optionId" := optionId ]> {[ "userId" := userId ]}) ]})]).

(** The effect run when [data] or [error] of the mutation changes:
    [if (data) { setState({ ...done });
                 setTimeout(() => setState({ ...vote }), 5000); return ... }
     if (error) { setState({ ...failed }) }] *)
Definition voteOutcomeEffect (data error : value) (state : gmap string value)
  : gmap string value * list Effect :=
  if truthy data then
    (buttonState "👍 Done" "success",
     [SetTimeout (buttonState "🗳️ Vote" "primary") 5000])
  else if truthy error then
    (buttonState "Error 😞 Try again" "danger", [])
  else (state, []).

(** *** Sample results and polls *)

Definition resultEntry (text : string) (votes : Z) : value :=
  VObj (<[ "option" := VObj {[ "text" := VStr text ]} ]>
        {[ "votes" := VNum votes ]}).

Definition sampleResults : value :=
  VArr [resultEntry "Tabs" 3; resultEntry "Spaces" 1].

Definition samplePoll (id question : string) : value :=
  VObj (<[ "id" := VStr id ]> {[ "question" := VStr question ]}).

Definition settled (data : value) : HookResult :=
  mkHookResult data (VBool false) VUndefined.

(** ** The definition lookup of the client library

    [getMainDefinition] is imported from [@apollo/client/utilities] and
    is not part of the repository.  To run the router on concrete
    documents it is modelled here after the library's published source:
    [checkDocument] rejects what is not a document, a definition that is
    neither an operation nor a fragment, and more than one operation;
    the lookup then returns the operation (query, mutation or
    subscription), else the first fragment, else throws.  The payload of
    [invariantError] stands for the library's InvariantError object. *)
Module ApolloUtilities.

Definition invariantError : exn := Thrown (VStr "Invariant Violation").

(** [array.filter(f)] with a callback that may throw. *)
Fixpoint filterM {A : Type} (f : A -> outcome bool) (l : list A) : outcome (list A) :=
  match l with
  | [] => Returns []
  | x :: rest =>
      let* keep := f x in
      let* kept := filterM f rest in
      Returns (if keep : bool then x :: kept else kept)
  end.

(** [(d) => d.kind !== "FragmentDefinition"] *)
Definition notFragment (d : value) : outcome bool :=
  let* kind := member d "kind" in
  Returns (negb (strict_eq_str kind "FragmentDefinition")).

(** [(definition) => { if (definition.kind !== "OperationDefinition")
                         throw ...; return definition; }] *)
Definition requireOperation (definition : value) : outcome value :=
  let* kind := member definition "kind" in
  if strict_eq_str kind "OperationDefinition" then Returns definition
  else Throws invariantError.

(** [doc.definitions] as the array whose methods are called on it. *)
Definition definitionsOf (doc : value) : outcome (list value) :=
  let* definitions := member doc "definitions" in
  match definitions with
  | VArr items => Returns items
  | _ => Throws TypeError
  end.

(** [invariant(doc && doc.kind === "Document");
     const operations = doc.definitions
       .filter((d) => d.kind !== "FragmentDefinition")
       .map(...);
     invariant(operations.length <= 1);
     return doc] *)
Definition checkDocument (doc : value) : outcome value :=
  if truthy doc && strict_eq_str (own_property doc "kind") "Document" then
    let* items := definitionsOf doc in
    let* others := filterM notFragment items in
    let* operations := mapM requireOperation others in
    if (length operations <=? 1)%nat then Returns doc else Throws invariantError
  else Throws invariantError.

(** [operation === "query" || operation === "mutation" ||
     operation === "subscription"] *)
Definition isRootOperation (operation : value) : bool :=
  strict_eq_str operation "query" || strict_eq_str operation "mutation"
  || strict_eq_str operation "subscription".

(** The loop [for (let definition of queryDoc.definitions)] with the
    fragment remembered so far, and the code after the loop. *)
Fixpoint scanDefinitions (fragmentDefinition : option value) (definitions : list value)
  : outcome value :=
  match definitions with
  | [] =>
      match fragmentDefinition with
      | Some fragment => Returns fragment
      | None => Throws invariantError
      end
  | definition :: rest =>
      let* kind := member definition "kind" in
      let* found :=
        (if strict_eq_str kind "OperationDefinition" then
           let* operation := member definition "operation" in
           Returns (if isRootOperation operation then Some definition else None)
         else Returns None) in
      match found with
      | Some operationDefinition => Returns operationDefinition
      | None =>
          if strict_eq_str kind "FragmentDefinition"
             && negb (bool_decide (is_Some fragmentDefinition))
          then scanDefinitions (Some definition) rest
          else scanDefinitions fragmentDefinition rest
      end
  end.

Definition getMainDefinition (queryDoc : value) : outcome value :=
  let* doc := checkDocument queryDoc in
  let* definitions := definitionsOf doc in
  scanDefinitions None definitions.

End ApolloUtilities.

(** *** More sample documents *)

Definition fragmentDefinition (name : string) : value :=
  VObj (<[ "kind" := VStr "FragmentDefinition" ]> {[ "name" := VStr name ]}).

Definition twoOperationsDoc : value :=
  document [operationDefinition "query" "getPoll";
            operationDefinition "mutation" "vote"].
Definition fragmentOnlyDoc : value := document [fragmentDefinition "pollFields"].

(** * Endpoint URIs *)

Lemma scheme_encrypted (base : string) : scheme "https:" base = base +:+ "s".
Proof. reflexivity. Qed.

Lemma scheme_plain (protocol base : string) :
  protocol <> "https:" -> scheme protocol base = base.
Proof.
  intros Hne. unfold scheme.
  destruct (String.eqb_spec protocol "https:") as [Heq | _]; [contradiction | reflexivity].
Qed.


(** C9. The encryption test is equality with the exact string "https:":
    for every other page protocol, [scheme] returns its base argument
    unchanged, so the streaming URI keeps the base "ws" and the
    request/response URI keeps the base "https" it is given. *)
Theorem plain_branch_unless_exactly_https (protocol base host : string) :
  protocol <> "https:" ->
  scheme protocol base = base /\
  wsURI_at protocol host = "ws://" +:+ host +:+ "/v1/graphql" /\
  httpURL_at protocol host = "https://" +:+ host +:+ "/v1/graphql".
Proof.
  intros Hne. unfold wsURI_at, httpURL_at.
  rewrite !(scheme_plain protocol) by exact Hne.
  repeat split; reflexivity.
Qed.

Lemma plain_branch_unless_exactly_https_witness :
  (scheme "http:" "ws" = "ws" /\
   wsURI_at "http:" "example.test" = "ws://example.test/v1/graphql" /\
   httpURL_at "http:" "example.test" = "https://example.test/v1/graphql") /\
  scheme "file:" "ws" = "ws" /\
  scheme "about:" "https" = "https" /\
  scheme "HTTPS:" "ws" = "ws".
Proof.
  split; [| split; [| split]].
  - apply (plain_branch_unless_exactly_https "http:" "ws" "example.test").
    discriminate.
  - apply (plain_branch_unless_exactly_https "file:" "ws" "example.test").
    discriminate.
  - apply (plain_branch_unless_exactly_https "about:" "https" "example.test").
    discriminate.
  - apply (plain_branch_unless_exactly_https "HTTPS:" "ws" "example.test").
    discriminate.
Defined.



(** C2. On a page loaded over plain http, the derivation at host
    [example.test] gives the streaming URI [ws://example.test/v1/graphql],
    but the request/response URI is [https://example.test/v1/graphql],
    not [http://example.test/v1/graphql]: the base handed to [scheme]
    is "https" where the streaming sibling hands over the plain "ws". *)
Theorem plain_page_example_uris :
  wsURI_at "http:" "example.test" = "ws://example.test/v1/graphql" /\
  httpURL_at "http:" "example.test" = "https://example.test/v1/graphql" /\
  httpURL_at "http:" "example.test" <> "http://example.test/v1/graphql" /\
  httpURL "http:" = "https://genuine-macaw-22.hasura.app/v1/graphql".
Proof. repeat split. discriminate. Qed.

(** C3. On a page loaded over https, the derivation at host
    [example.test] gives the streaming URI [wss://example.test/v1/graphql],
    but the request/response URI is [httpss://example.test/v1/graphql],
    not [https://example.test/v1/graphql]: [scheme] appends its "s" to
    the base "https". *)
Theorem encrypted_page_example_uris :
  wsURI_at "https:" "example.test" = "wss://example.test/v1/graphql" /\
  httpURL_at "https:" "example.test" = "httpss://example.test/v1/graphql" /\
  httpURL_at "https:" "example.test" <> "https://example.test/v1/graphql" /\
  httpURL "https:" = "httpss://genuine-macaw-22.hasura.app/v1/graphql".
Proof. repeat split. discriminate. Qed.

(** * Classification *)

Lemma strict_eq_str_true (v : value) (lit : string) :
  strict_eq_str v lit = true <-> v = VStr lit.
Proof.
  destruct v; simpl; try (split; [discriminate | intros [=]]).
  rewrite String.eqb_eq. split; [intros -> | intros [=]]; done.
Qed.

Lemma definition_field_str (d : value) (k lit : string) :
  definition_field d k = VStr lit <->
  exists props, d = VObj props /\ props !! k = Some (VStr lit).
Proof.
  split.
  - destruct d as [ | | b | n | s | items | props]; simpl; try discriminate.
    destruct (props !! k) as [v |] eqn:Hk; simpl; [| discriminate].
    intros ->. exists props. split; done.
  - intros (props & -> & Hk). simpl. rewrite Hk. reflexivity.
Qed.

Lemma shape_is_subscription_iff (d : value) :
  shape_is_subscription d = true <-> is_subscription_definition d.
Proof.
  unfold shape_is_subscription, is_subscription_definition.
  rewrite andb_true_iff, !strict_eq_str_true, !definition_field_str.
  split.
  - intros [(props & -> & Hkind) (props' & [= <-] & Hop)]. eauto.
  - intros (props & -> & Hkind & Hop). split; eauto.
Qed.

Lemma shape_is_not_subscription_iff (d : value) :
  shape_is_subscription d = false <-> ~ is_subscription_definition d.
Proof.
  rewrite <- shape_is_subscription_iff.
  destruct (shape_is_subscription d); split; done.
Qed.

(** After [|| {}] the object pattern never meets null or undefined. *)
Lemma get_prop_guarded (d : value) (k : string) :
  get_prop (js_or d empty_object) k = Returns (definition_field d k).
Proof.
  destruct d as [ | | [ | ] | n | s | items | props]; unfold js_or; simpl;
    try reflexivity.
  - destruct (n =? 0)%Z; reflexivity.
  - destruct (String.eqb s ""); reflexivity.
Qed.

(** Without the guard the same pattern throws on a missing definition. *)
Lemma get_prop_unguarded_throws (d : value) (k : string) :
  d = VNull \/ d = VUndefined -> get_prop d k = Throws TypeError.
Proof. intros [-> | ->]; reflexivity. Qed.

Section RouterFacts.
Variable getMainDefinition : value -> outcome value.
Variable location_protocol : string.

Lemma splitter_returns (op : Operation) (d : value) :
  getMainDefinition (query op) = Returns d ->
  splitter getMainDefinition op = Returns (shape_is_subscription d).
Proof.
  intros Hd. unfold splitter. rewrite Hd. simpl.
  rewrite !get_prop_guarded. reflexivity.
Qed.

(** A throw of the lookup is not caught: it leaves the classifier. *)
Lemma splitter_propagates_throw (op : Operation) (e : exn) :
  getMainDefinition (query op) = Throws e ->
  splitter getMainDefinition op = Throws e.
Proof. intros He. unfold splitter. rewrite He. reflexivity. Qed.

Lemma link_returns (op : Operation) (d : value) :
  getMainDefinition (query op) = Returns d ->
  link getMainDefinition location_protocol op =
    if shape_is_subscription d
    then Returns [mkDispatch STREAMING (wsURI location_protocol) op]
    else Returns [mkDispatch REQUEST_RESPONSE (httpURL location_protocol) op].
Proof.
  intros Hd. unfold link, split.
  rewrite (splitter_returns op d Hd). simpl.
  destruct (shape_is_subscription d); reflexivity.
Qed.

Lemma link_throws (op : Operation) (e : exn) :
  getMainDefinition (query op) = Throws e ->
  link getMainDefinition location_protocol op = Throws e.
Proof.
  intros He. unfold link, split. rewrite (splitter_propagates_throw op e He).
  reflexivity.
Qed.

Lemma uses_single (t t' : Transport) (u : string) (op : Operation) :
  uses t (Returns [mkDispatch t' u op]) <-> t = t'.
Proof.
  unfold uses. split.
  - intros (sends & [= <-] & d & Hin & Hvia).
    apply list_elem_of_singleton in Hin. subst d. simpl in Hvia. congruence.
  - intros ->. eexists. split; [reflexivity |].
    eexists. split; [apply list_elem_of_singleton; reflexivity | reflexivity].
Qed.
End RouterFacts.

(** * The library lookup *)

Lemma member_returns (v : value) (k : string) :
  nullish v = false -> member v k = Returns (own_property v k).
Proof. destruct v; simpl; intros H; try discriminate; reflexivity. Qed.

Lemma member_throws (v : value) (k : string) :
  nullish v = true -> member v k = Throws TypeError.
Proof. destruct v; simpl; intros H; try discriminate; reflexivity. Qed.

Lemma member_cases (v : value) (k : string) :
  (nullish v = true /\ member v k = Throws TypeError) \/
  (nullish v = false /\ member v k = Returns (own_property v k)).
Proof.
  destruct (nullish v) eqn:Hn; [left | right]; split; try reflexivity.
  - by apply member_throws.
  - by apply member_returns.
Qed.

Lemma scanDefinitions_not_nullish (definitions : list value)
  (fragmentDefinition : option value) (d : value) :
  (forall fragment, fragmentDefinition = Some fragment -> nullish fragment = false) ->
  ApolloUtilities.scanDefinitions fragmentDefinition definitions = Returns d ->
  nullish d = false.
Proof.
  revert fragmentDefinition.
  induction definitions as [| definition rest IH]; intros fragmentDefinition Hfrag; simpl.
  - destruct fragmentDefinition as [fragment |]; [| discriminate].
    intros [= <-]. by apply Hfrag.
  - destruct (member_cases definition "kind") as [[Hn ->] | [Hn ->]]; simpl;
      [discriminate |].
    rewrite (member_returns _ "operation" Hn).
    assert (Hrest :
      (if strict_eq_str (own_property definition "kind") "FragmentDefinition"
          && negb (bool_decide (is_Some fragmentDefinition))
       then ApolloUtilities.scanDefinitions (Some definition) rest
       else ApolloUtilities.scanDefinitions fragmentDefinition rest) = Returns d ->
      nullish d = false).
    { destruct (strict_eq_str (own_property definition "kind") "FragmentDefinition"
                && negb (bool_decide (is_Some fragmentDefinition))).
      - apply IH. by intros fragment [= <-].
      - by apply IH. }
    destruct (strict_eq_str (own_property definition "kind") "OperationDefinition");
      simpl; [| exact Hrest].
    destruct (ApolloUtilities.isRootOperation (own_property definition "operation"));
      simpl; [by intros [= <-] | exact Hrest].
Qed.

(** The library's lookup returns a definition or throws: its result is
    never null or undefined. *)
Lemma getMainDefinition_not_nullish (queryDoc d : value) :
  ApolloUtilities.getMainDefinition queryDoc = Returns d -> nullish d = false.
Proof.
  unfold ApolloUtilities.getMainDefinition.
  destruct (ApolloUtilities.checkDocument queryDoc) as [doc | e]; simpl; [| discriminate].
  destruct (ApolloUtilities.definitionsOf doc) as [definitions | e]; simpl;
    [| discriminate].
  apply scanDefinitions_not_nullish. discriminate.
Qed.

(** * The routing contract *)




(** C4, counterexample.  For a document whose main definition cannot be
    extracted, the library's lookup does not yield null or undefined but
    throws; the classifier and the composed link throw with it, and the
    operation is not sent over the request/response transport. *)
Lemma missing_definition_throws_instead_of_defaulting :
  ApolloUtilities.getMainDefinition emptyDoc = Throws ApolloUtilities.invariantError /\
  splitter ApolloUtilities.getMainDefinition (operationOf emptyDoc VNull)
    = Throws ApolloUtilities.invariantError /\
  link ApolloUtilities.getMainDefinition "http:" (operationOf emptyDoc VNull)
    <> Returns [mkDispatch REQUEST_RESPONSE (httpURL "http:")
                  (operationOf emptyDoc VNull)].
Proof. split; [reflexivity |]. split; [reflexivity | discriminate]. Qed.

(** C4.  If the lookup yields null or undefined, the classifier
    answers false and the operation is sent over the request/response
    transport, without a throw.  The library's lookup never yields null
    or undefined; when the lookup throws instead, the classifier and the
    composed link throw the same exception and nothing is sent. *)
Theorem missing_definition_defaults_only_if_lookup_returns
  (getMainDefinition : value -> outcome value) (location_protocol : string)
  (op : Operation) :
  (getMainDefinition (query op) = Returns VNull \/
   getMainDefinition (query op) = Returns VUndefined ->
   splitter getMainDefinition op = Returns false /\
   link getMainDefinition location_protocol op
     = Returns [mkDispatch REQUEST_RESPONSE (httpURL location_protocol) op]) /\
  (forall e, getMainDefinition (query op) = Throws e ->
     splitter getMainDefinition op = Throws e /\
     link getMainDefinition location_protocol op = Throws e /\
     forall t, ~ uses t (link getMainDefinition location_protocol op)) /\
  (forall d, ApolloUtilities.getMainDefinition (query op) = Returns d ->
             nullish d = false).
Proof.
  split; [| split].
  - intros [Hd | Hd];
      rewrite (splitter_returns _ _ _ Hd), (link_returns _ _ _ _ Hd);
      split; reflexivity.
  - intros e He. split; [by apply splitter_propagates_throw |].
    rewrite (link_throws _ location_protocol _ _ He). split; [reflexivity |].
    intros t (sends & Hr & _). discriminate.
  - intros d. apply getMainDefinition_not_nullish.
Qed.

Lemma missing_definition_defaults_only_if_lookup_returns_witness :
  splitter (fun _ => Returns VUndefined) (operationOf emptyDoc VNull) = Returns false /\
  link ApolloUtilities.getMainDefinition "http:" (operationOf emptyDoc VNull)
    = Throws ApolloUtilities.invariantError /\
  nullish (operationDefinition "query" "getPoll") = false.
Proof.
  split; [| split].
  - apply (proj1 (missing_definition_defaults_only_if_lookup_returns
                    (fun _ => Returns VUndefined) "http:" (operationOf emptyDoc VNull))).
    right. reflexivity.
  - apply (proj1 (proj2 (missing_definition_defaults_only_if_lookup_returns
                    ApolloUtilities.getMainDefinition "http:"
                    (operationOf emptyDoc VNull)))
             ApolloUtilities.invariantError).
    reflexivity.
  - apply (proj2 (proj2 (missing_definition_defaults_only_if_lookup_returns
                    ApolloUtilities.getMainDefinition "http:"
                    (operationOf queryDoc VNull)))).
    reflexivity.
Defined.

(** C10, counterexample.  The classifier is not total: on a document
    with no extractable main definition the library's lookup throws, and
    the classifier throws with it instead of returning a boolean. *)
Lemma classifier_throws_on_empty_document :
  splitter ApolloUtilities.getMainDefinition (operationOf emptyDoc VNull)
    = Throws ApolloUtilities.invariantError /\
  ~ exists b : bool,
      splitter ApolloUtilities.getMainDefinition (operationOf emptyDoc VNull)
        = Returns b.
Proof. split; [reflexivity |]. intros [b Hb]. discriminate. Qed.

(** C10.  The classifier returns a boolean exactly when the
    lookup returns, whatever value that is, null and undefined included:
    the operand of the object pattern is [found || {}], which is never
    null or undefined and is the empty object when the lookup found
    nothing.  It throws exactly when the lookup throws, with the same
    exception. *)
Theorem classifier_returns_boolean_iff_lookup_returns
  (getMainDefinition : value -> outcome value) (op : Operation) :
  ((exists b : bool, splitter getMainDefinition op = Returns b) <->
   exists d, getMainDefinition (query op) = Returns d) /\
  (forall e, splitter getMainDefinition op = Throws e <->
             getMainDefinition (query op) = Throws e) /\
  (forall d, js_or d empty_object <> VNull /\ js_or d empty_object <> VUndefined) /\
  js_or VNull empty_object = empty_object /\
  js_or VUndefined empty_object = empty_object.
Proof.
  split; [| split; [| split; [| split; reflexivity]]].
  - destruct (getMainDefinition (query op)) as [d | e] eqn:Hd.
    + rewrite (splitter_returns _ _ _ Hd). split; eauto.
    + rewrite (splitter_propagates_throw _ _ _ Hd).
      split; [intros [b [=]] | intros [d [=]]].
  - intros e. destruct (getMainDefinition (query op)) as [d | e'] eqn:Hd.
    + rewrite (splitter_returns _ _ _ Hd). split; discriminate.
    + rewrite (splitter_propagates_throw _ _ _ Hd). split; intros [= ->]; reflexivity.
  - intros d. split; intros Hbad; pose proof (get_prop_guarded d "kind") as Hg;
      rewrite Hbad in Hg; discriminate.
Qed.

Lemma classifier_returns_boolean_iff_lookup_returns_witness :
  (exists b : bool,
     splitter ApolloUtilities.getMainDefinition (operationOf fragmentOnlyDoc VNull)
       = Returns b) /\
  splitter ApolloUtilities.getMainDefinition (operationOf twoOperationsDoc VNull)
    = Throws ApolloUtilities.invariantError.
Proof.
  split.
  - apply (proj1 (classifier_returns_boolean_iff_lookup_returns
                    ApolloUtilities.getMainDefinition
                    (operationOf fragmentOnlyDoc VNull))).
    exists (fragmentDefinition "pollFields"). reflexivity.
  - apply (proj1 (proj2 (classifier_returns_boolean_iff_lookup_returns
                    ApolloUtilities.getMainDefinition
                    (operationOf twoOperationsDoc VNull)))).
    reflexivity.
Defined.

(** C5, counterexample.  An operation whose document holds two
    operations is sent over no transport at all: the library's lookup
    throws on it and the composed link throws with it. *)
Lemma ambiguous_document_uses_no_transport :
  link ApolloUtilities.getMainDefinition "http:" (operationOf twoOperationsDoc VNull)
    = Throws ApolloUtilities.invariantError /\
  ~ (uses STREAMING
       (link ApolloUtilities.getMainDefinition "http:"
          (operationOf twoOperationsDoc VNull)) \/
     uses REQUEST_RESPONSE
       (link ApolloUtilities.getMainDefinition "http:"
          (operationOf twoOperationsDoc VNull))).
Proof.
  split; [reflexivity |]. intros [(sends & Hr & _) | (sends & Hr & _)]; discriminate.
Qed.

(** C5.  The composed link never uses both transports for an
    operation: it uses exactly one, with a single send of the operation,
    when the lookup returns, and none when the lookup throws.  Which
    transport is used depends on the operation's document only: an
    operation carrying the same document is treated alike whatever its
    variables and other runtime data. *)
Theorem at_most_one_transport_per_operation
  (getMainDefinition : value -> outcome value) (location_protocol : string)
  (op : Operation) :
  ~ (uses STREAMING (link getMainDefinition location_protocol op) /\
     uses REQUEST_RESPONSE (link getMainDefinition location_protocol op)) /\
  ((uses STREAMING (link getMainDefinition location_protocol op) \/
    uses REQUEST_RESPONSE (link getMainDefinition location_protocol op)) <->
   exists d, getMainDefinition (query op) = Returns d) /\
  (forall sends, link getMainDefinition location_protocol op = Returns sends ->
     exists t u, sends = [mkDispatch t u op]) /\
  (forall op' t, query op' = query op ->
     uses t (link getMainDefinition location_protocol op') <->
     uses t (link getMainDefinition location_protocol op)).
Proof.
  assert (Hsame : forall op' t, query op' = query op ->
            uses t (link getMainDefinition location_protocol op') <->
            uses t (link getMainDefinition location_protocol op)).
  { intros op' t Hq.
    destruct (getMainDefinition (query op)) as [d | e] eqn:Hd.
    - rewrite (link_returns _ _ op d Hd). rewrite <- Hq in Hd.
      rewrite (link_returns _ _ op' d Hd).
      destruct (shape_is_subscription d); rewrite !uses_single; reflexivity.
    - rewrite (link_throws _ location_protocol op e Hd). rewrite <- Hq in Hd.
      rewrite (link_throws _ location_protocol op' e Hd). reflexivity. }
  split; [| split; [| split; [| exact Hsame]]].
  - destruct (getMainDefinition (query op)) as [d | e] eqn:Hd.
    + rewrite (link_returns _ _ _ _ Hd).
      destruct (shape_is_subscription d); rewrite !uses_single; intros [? ?]; discriminate.
    + rewrite (link_throws _ location_protocol _ _ Hd).
      intros [(sends & Hr & _) _]. discriminate.
  - destruct (getMainDefinition (query op)) as [d | e] eqn:Hd.
    + rewrite (link_returns _ _ _ _ Hd).
      destruct (shape_is_subscription d); rewrite !uses_single;
        (split; [eauto | intros _; (by left) || (by right)]).
    + rewrite (link_throws _ location_protocol _ _ Hd).
      split; [intros [(sends & Hr & _) | (sends & Hr & _)]; discriminate
             | intros [d [=]]].
  - intros sends. destruct (getMainDefinition (query op)) as [d | e] eqn:Hd.
    + rewrite (link_returns _ _ _ _ Hd).
      destruct (shape_is_subscription d); intros [= <-]; eauto.
    + rewrite (link_throws _ location_protocol _ _ Hd). discriminate.
Qed.

Lemma at_most_one_transport_per_operation_witness :
  (uses STREAMING
     (link ApolloUtilities.getMainDefinition "https:"
        (operationOf subscriptionDoc (VNum 7))) \/
   uses REQUEST_RESPONSE
     (link ApolloUtilities.getMainDefinition "https:"
        (operationOf subscriptionDoc (VNum 7)))) /\
  exists t u,
    [mkDispatch REQUEST_RESPONSE (httpURL "https:") (operationOf queryDoc (VNum 7))]
      = [mkDispatch t u (operationOf queryDoc (VNum 7))].
Proof.
  split.
  - apply (proj1 (proj2 (at_most_one_transport_per_operation
                    ApolloUtilities.getMainDefinition "https:"
                    (operationOf subscriptionDoc (VNum 7))))).
    exists (operationDefinition "subscription" "getResult"). reflexivity.
  - apply (proj1 (proj2 (proj2 (at_most_one_transport_per_operation
                    ApolloUtilities.getMainDefinition "https:"
                    (operationOf queryDoc (VNum 7)))))).
    reflexivity.
Defined.

(** C6. The classifier's answer is a function of the main definition's
    kind and operation type alone: two operations whose main definitions
    agree on these two fields are classified alike, and replacing the
    variables, name, extensions and context (headers included) of an
    operation never changes its classification.  The classifier reads no
    page or connection state: it is a function of the operation. *)
Theorem splitter_depends_only_on_definition_shape
  (getMainDefinition : value -> outcome value)
  (op1 op2 : Operation) (d1 d2 : value) :
  getMainDefinition (query op1) = Returns d1 ->
  getMainDefinition (query op2) = Returns d2 ->
  definition_field d1 "kind" = definition_field d2 "kind" ->
  definition_field d1 "operation" = definition_field d2 "operation" ->
  splitter getMainDefinition op1 = splitter getMainDefinition op2 /\
  (forall vars name ext ctx,
     splitter getMainDefinition (mkOperation (query op1) vars name ext ctx)
       = splitter getMainDefinition op1).
Proof.
  intros H1 H2 Hkind Hop. split.
  - rewrite (splitter_returns _ _ _ H1), (splitter_returns _ _ _ H2).
    unfold shape_is_subscription. rewrite Hkind, Hop. reflexivity.
  - intros vars name ext ctx. reflexivity.
Qed.

Lemma splitter_depends_only_on_definition_shape_witness :
  splitter firstDefinition (operationOf subscriptionDoc (VNum 1))
    = splitter firstDefinition
        (mkOperation onlineUsersDoc (VObj {[ "uuid" := VStr "a" ]}) (VStr "online")
           empty_object (VObj {[ "headers" := VObj {[ "x-role" := VStr "user" ]} ]})).
Proof.
  apply (splitter_depends_only_on_definition_shape firstDefinition
           (operationOf subscriptionDoc (VNum 1))
           (mkOperation onlineUsersDoc (VObj {[ "uuid" := VStr "a" ]}) (VStr "online")
              empty_object (VObj {[ "headers" := VObj {[ "x-role" := VStr "user" ]} ]}))
           (operationDefinition "subscription" "getResult")
           (operationDefinition "subscription" "getOnlineUsersCount"));
    reflexivity.
Defined.

(** * Connection options

    The module places [{ reconnect: true }] under [connectionParams.options]
    of the object handed to [createClient], next to the streaming URI.
    What the WebSocket client does with it on a dropped connection is the
    library's behaviour and is not part of the module. *)
Lemma clientOptions_reconnect_flag (location_protocol : string) :
  exists props params opts,
    clientOptions location_protocol = VObj props /\
    props !! "url" = Some (VStr (wsURI location_protocol)) /\
    props !! "connectionParams" = Some (VObj params) /\
    params !! "options" = Some (VObj opts) /\
    opts !! "reconnect" = Some (VBool true).
Proof.
  unfold clientOptions, options. do 3 eexists.
  split; [reflexivity |]. split; [apply lookup_insert_eq |].
  split; [rewrite lookup_insert_ne by done; apply lookup_singleton_eq |].
  split; apply lookup_singleton_eq.
Qed.

(** * Further facts about the router *)

(** X1. A throw of the definition lookup is not caught anywhere in the
    module: the composed link throws the same exception and sends the
    operation over neither transport. *)
Theorem link_propagates_lookup_throw
  (getMainDefinition : value -> outcome value) (location_protocol : string)
  (op : Operation) (e : exn) :
  getMainDefinition (query op) = Throws e ->
  link getMainDefinition location_protocol op = Throws e /\
  forall t, ~ uses t (link getMainDefinition location_protocol op).
Proof.
  intros He. rewrite (link_throws _ location_protocol _ _ He).
  split; [reflexivity |].
  intros t (sends & Hr & _). discriminate.
Qed.

Lemma link_propagates_lookup_throw_witness :
  link firstDefinition "https:" (operationOf (VStr "subscription { x }") VNull)
    = Throws (Thrown (VStr "not a document")).
Proof.
  apply (link_propagates_lookup_throw firstDefinition "https:"
           (operationOf (VStr "subscription { x }") VNull)
           (Thrown (VStr "not a document"))).
  reflexivity.
Defined.

(** X2. The streaming transport is used exactly for the operations on
    which the lookup returns a subscription definition, and the
    request/response transport exactly for those on which it returns
    anything else; no assumption on the lookup is needed. *)
Theorem transport_use_reflects_lookup
  (getMainDefinition : value -> outcome value) (location_protocol : string)
  (op : Operation) :
  (uses STREAMING (link getMainDefinition location_protocol op) <->
   exists d, getMainDefinition (query op) = Returns d /\
             is_subscription_definition d) /\
  (uses REQUEST_RESPONSE (link getMainDefinition location_protocol op) <->
   exists d, getMainDefinition (query op) = Returns d /\
             ~ is_subscription_definition d).
Proof.
  destruct (getMainDefinition (query op)) as [d | e] eqn:Hd.
  - rewrite (link_returns _ _ _ _ Hd).
    pose proof (shape_is_subscription_iff d) as Hyes.
    pose proof (shape_is_not_subscription_iff d) as Hno.
    destruct (shape_is_subscription d); rewrite !uses_single; split; split.
    + intros _. exists d. split; [reflexivity | by apply Hyes].
    + reflexivity.
    + discriminate.
    + intros (d' & [= <-] & Hn). exfalso. apply Hn. by apply Hyes.
    + discriminate.
    + intros (d' & [= <-] & Hs). apply Hyes in Hs. discriminate.
    + intros _. exists d. split; [reflexivity | by apply Hno].
    + reflexivity.
  - rewrite (link_throws _ location_protocol _ _ Hd).
    split; split.
    + intros (sends & Hr & _). discriminate.
    + intros (d & [=] & _).
    + intros (sends & Hr & _). discriminate.
    + intros (d & [=] & _).
Qed.

(** X3. Whenever the composed link completes, it has performed a single
    send, of the operation it was given, to the endpoint that belongs to
    the transport used: the WebSocket URI for the streaming transport and
    the HTTP URL for the request/response transport. *)
Theorem every_send_targets_the_endpoint_of_its_transport
  (getMainDefinition : value -> outcome value) (location_protocol : string)
  (op : Operation) (sends : list Dispatch) :
  link getMainDefinition location_protocol op = Returns sends ->
  sends = [mkDispatch STREAMING (wsURI location_protocol) op] \/
  sends = [mkDispatch REQUEST_RESPONSE (httpURL location_protocol) op].
Proof.
  destruct (getMainDefinition (query op)) as [d | e] eqn:Hd.
  - rewrite (link_returns _ _ _ _ Hd).
    destruct (shape_is_subscription d); intros [= <-]; [left | right]; reflexivity.
  - rewrite (link_throws _ location_protocol _ _ Hd). discriminate.
Qed.

Lemma every_send_targets_the_endpoint_of_its_transport_witness :
  [mkDispatch REQUEST_RESPONSE (httpURL "http:") (operationOf queryDoc VNull)]
    = [mkDispatch STREAMING (wsURI "http:") (operationOf queryDoc VNull)] \/
  [mkDispatch REQUEST_RESPONSE (httpURL "http:") (operationOf queryDoc VNull)]
    = [mkDispatch REQUEST_RESPONSE (httpURL "http:") (operationOf queryDoc VNull)].
Proof.
  apply (every_send_targets_the_endpoint_of_its_transport firstDefinition "http:"
           (operationOf queryDoc VNull)).
  reflexivity.
Defined.

(** X4. The streaming URI follows the page: it is the [wss] URI of the
    host exactly when the page protocol is "https:", and the [ws] URI of
    the host exactly when it is anything else. *)
Theorem wsURI_scheme_follows_page_protocol (location_protocol host : string) :
  (wsURI_at location_protocol host = "wss://" +:+ host +:+ "/v1/graphql"
   <-> location_protocol = "https:") /\
  (wsURI_at location_protocol host = "ws://" +:+ host +:+ "/v1/graphql"
   <-> location_protocol <> "https:").
Proof.
  unfold wsURI_at, scheme.
  destruct (String.eqb_spec location_protocol "https:") as [-> | Hne]; simpl.
  - split; split; done.
  - split; split; done.
Qed.

(** X5. On a page loaded over https, no send of the composed link goes
    to a plain [ws://] or [http://] endpoint. *)
Theorem encrypted_page_never_targets_plain_endpoint
  (getMainDefinition : value -> outcome value)
  (op : Operation) (sends : list Dispatch) (d : Dispatch) :
  link getMainDefinition "https:" op = Returns sends ->
  d ∈ sends ->
  String.prefix "ws://" (endpoint d) = false /\
  String.prefix "http://" (endpoint d) = false.
Proof.
  intros Hl Hin.
  destruct (getMainDefinition (query op)) as [found | e] eqn:Hd.
  - rewrite (link_returns _ _ _ _ Hd) in Hl.
    destruct (shape_is_subscription found); injection Hl as <-;
      apply list_elem_of_singleton in Hin; subst d; split; reflexivity.
  - rewrite (link_throws _ "https:" _ _ Hd) in Hl. discriminate.
Qed.

Lemma encrypted_page_never_targets_plain_endpoint_witness :
  String.prefix "ws://" "wss://genuine-macaw-22.hasura.app/v1/graphql" = false /\
  String.prefix "http://" "wss://genuine-macaw-22.hasura.app/v1/graphql" = false.
Proof.
  apply (encrypted_page_never_targets_plain_endpoint firstDefinition
           (operationOf subscriptionDoc VNull)
           [mkDispatch STREAMING "wss://genuine-macaw-22.hasura.app/v1/graphql"
              (operationOf subscriptionDoc VNull)]
           (mkDispatch STREAMING "wss://genuine-macaw-22.hasura.app/v1/graphql"
              (operationOf subscriptionDoc VNull))).
  - reflexivity.
  - apply list_elem_of_singleton. reflexivity.
Defined.

(** * The components *)

Lemma mapM_length {A B : Type} (f : A -> outcome B) (l : list A) (ys : list B) :
  mapM f l = Returns ys -> length ys = length l.
Proof.
  revert ys. induction l as [| x rest IH]; simpl; intros ys.
  - intros [= <-]. reflexivity.
  - destruct (f x) as [y | e]; simpl; [| discriminate].
    destruct (mapM f rest) as [ys' | e]; simpl; [| discriminate].
    intros [= <-]. simpl. f_equal. by apply IH.
Qed.

Lemma mapM_lookup {A B : Type} (f : A -> outcome B) (l : list A) (ys : list B)
  (i : nat) (x : A) :
  mapM f l = Returns ys -> l !! i = Some x ->
  exists y, f x = Returns y /\ ys !! i = Some y.
Proof.
  revert ys i. induction l as [| x0 rest IH]; simpl; intros ys i Hm Hi.
  - discriminate.
  - destruct (f x0) as [y0 | e] eqn:Hx0; simpl in Hm; [| discriminate].
    destruct (mapM f rest) as [ys' | e]; simpl in Hm; [| discriminate].
    injection Hm as <-. destruct i as [| i]; simpl in *.
    + injection Hi as <-. eauto.
    + by apply IH.
Qed.

Lemma mapM_returns_iff {A B : Type} (f : A -> outcome B) (l : list A) :
  (exists ys, mapM f l = Returns ys) <->
  Forall (fun x => exists y, f x = Returns y) l.
Proof.
  induction l as [| x rest IH]; simpl.
  - split; [constructor | eauto].
  - split.
    + intros [ys Hm].
      destruct (f x) as [y | e] eqn:Hx; simpl in Hm; [| discriminate].
      destruct (mapM f rest) as [ys' | e]; simpl in Hm; [| discriminate].
      constructor; [eauto | apply IH; eauto].
    + intros HF. inversion HF as [| ? ? [y Hy] Hrest]; subst.
      apply IH in Hrest as [ys Hys]. rewrite Hy, Hys. simpl. eauto.
Qed.

Lemma mapM_throws {A B : Type} (f : A -> outcome B) (l : list A) (e : exn) :
  mapM f l = Throws e -> exists x, x ∈ l /\ f x = Throws e.
Proof.
  induction l as [| x rest IH]; simpl; [discriminate |].
  destruct (f x) as [y | e'] eqn:Hx; simpl.
  - destruct (mapM f rest) as [ys | e'] eqn:Hr; simpl; [discriminate |].
    intros [= ->]. destruct (IH eq_refl) as (x' & Hin & Hx').
    exists x'. split; [by apply list_elem_of_further | done].
  - intros [= ->]. exists x. split; [apply list_elem_of_here | done].
Qed.

Lemma mapM_throws_at {A B : Type} (f : A -> outcome B) (l : list A) (x : A) (e : exn) :
  (forall x' e', f x' = Throws e' -> e' = e) ->
  x ∈ l -> f x = Throws e -> mapM f l = Throws e.
Proof.
  intros Honly Hin Hx. destruct (mapM f l) as [ys | e'] eqn:Hm.
  - assert (HF : Forall (fun x => exists y, f x = Returns y) l).
    { apply mapM_returns_iff. eauto. }
    rewrite Forall_forall in HF. destruct (HF x Hin) as [y Hy]. congruence.
  - apply mapM_throws in Hm as (x' & _ & Hx'). by rewrite (Honly _ _ Hx').
Qed.

Lemma truthy_not_nullish (v : value) : truthy v = true -> nullish v = false.
Proof. destruct v; simpl; done. Qed.

Section ComponentFacts.
Variable parseInt : value -> value.
Variable coerced_gt_zero : value -> bool.

Lemma chartRow_cases (entry : value) :
  (nullish (own_property entry "option") = true /\
   chartRow parseInt entry = Throws TypeError) \/
  (nullish (own_property entry "option") = false /\
   chartRow parseInt entry =
     Returns (VArr [own_property (own_property entry "option") "text";
                    parseInt (own_property entry "votes");
                    parseInt (own_property entry "votes"); VStr COLOR])).
Proof.
  unfold chartRow.
  destruct entry as [ | | b | n | s | items | props]; simpl;
    try (left; split; reflexivity).
  destruct (member_cases (default VUndefined (props !! "option")) "text")
    as [[Hn ->] | [Hn ->]]; [left | right]; split; done.
Qed.

Lemma forEach_push_mapM (items d : list value) :
  forEach_push parseInt d items =
    let* rows := mapM (chartRow parseInt) items in Returns (d ++ rows)%list.
Proof.
  revert d. induction items as [| entry rest IH]; intros d; simpl.
  - by rewrite app_nil_r.
  - destruct (chartRow parseInt entry) as [row | e]; simpl; [| reflexivity].
    rewrite IH. destruct (mapM (chartRow parseInt) rest) as [rows | e]; simpl;
      [| reflexivity].
    by rewrite <- app_assoc.
Qed.

Lemma PollChart_returns (data : value) (rows : list value) :
  PollChart parseInt data = Returns rows ->
  exists items body,
    data = VArr items /\
    mapM (chartRow parseInt) items = Returns body /\
    rows = chartHeader :: body.
Proof.
  destruct data as [ | | b | n | s | items | props]; simpl; try discriminate.
  rewrite forEach_push_mapM.
  destruct (mapM (chartRow parseInt) items) as [body | e] eqn:Hbody; simpl;
    [| discriminate].
  intros [= <-]. exists items, body. repeat split; done.
Qed.

Lemma chartRow_throws_TypeError (entry : value) (e : exn) :
  chartRow parseInt entry = Throws e -> e = TypeError.
Proof.
  destruct (chartRow_cases entry) as [[_ ->] | [_ ->]]; [intros [= <-] |]; done.
Qed.
End ComponentFacts.

(** X6. When [PollChart] builds its rows, the data it was given is an
    array, the first row is the header, and the rows after it are one
    per entry, in the order of the entries: the option's text, the votes
    parsed as the value and again as the annotation, and the colour. *)
Theorem PollChart_rows_follow_entries
  (parseInt : value -> value) (data : value) (rows : list value) :
  PollChart parseInt data = Returns rows ->
  exists items,
    data = VArr items /\
    length rows = S (length items) /\
    rows !! 0%nat = Some chartHeader /\
    forall (i : nat) (entry : value),
      items !! i = Some entry ->
      rows !! S i =
        Some (VArr [own_property (own_property entry "option") "text";
                    parseInt (own_property entry "votes");
                    parseInt (own_property entry "votes"); VStr COLOR]).
Proof.
  intros Hr. apply PollChart_returns in Hr as (items & body & -> & Hbody & ->).
  exists items. split; [reflexivity |]. split; [| split].
  - simpl. f_equal. by apply mapM_length in Hbody.
  - reflexivity.
  - intros i entry Hi. simpl.
    destruct (mapM_lookup _ _ _ _ _ Hbody Hi) as (row & Hrow & ->).
    destruct (chartRow_cases parseInt entry) as [[_ Hc] | [_ Hc]];
      rewrite Hc in Hrow; [discriminate |]. by injection Hrow as <-.
Qed.

(** X7. [PollChart] builds its rows exactly when it is given an array
    whose every entry has an [option] that is neither null nor
    undefined; in every other case it throws a TypeError, so a single
    entry without its option leaves no chart at all. *)
Theorem PollChart_builds_iff_every_entry_has_option
  (parseInt : value -> value) (data : value) :
  ((exists rows, PollChart parseInt data = Returns rows) <->
   exists items, data = VArr items /\
     Forall (fun entry => nullish (own_property entry "option") = false) items) /\
  (forall e, PollChart parseInt data = Throws e -> e = TypeError).
Proof.
  split.
  - split.
    + intros [rows Hr].
      apply PollChart_returns in Hr as (items & body & -> & Hbody & _).
      exists items. split; [reflexivity |].
      assert (HF : Forall (fun x => exists y, chartRow parseInt x = Returns y) items).
      { apply mapM_returns_iff. eauto. }
      eapply Forall_impl; [exact HF |]. intros entry [row Hrow]. simpl.
      destruct (chartRow_cases parseInt entry) as [[_ Hc] | [Hn _]]; [| exact Hn].
      rewrite Hc in Hrow. discriminate.
    + intros (items & -> & HF). simpl. rewrite forEach_push_mapM.
      assert (HR : exists body, mapM (chartRow parseInt) items = Returns body).
      { apply mapM_returns_iff. eapply Forall_impl; [exact HF |].
        intros entry Hn. simpl in Hn.
        destruct (chartRow_cases parseInt entry) as [[Hn' _] | [_ Hc]]; [congruence | eauto]. }
      destruct HR as [body ->]. simpl. eauto.
  - intros e. destruct data as [ | | b | n | s | items | props]; simpl;
      try (intros [= <-]; reflexivity).
    rewrite forEach_push_mapM.
    destruct (mapM (chartRow parseInt) items) as [body | e'] eqn:Hm; simpl;
      [discriminate |].
    intros [= ->]. apply mapM_throws in Hm as (entry & _ & Hentry).
    by apply chartRow_throws_TypeError in Hentry.
Qed.

Lemma PollChart_rows_follow_entries_witness :
  exists rows items,
    PollChart (fun v => v) sampleResults = Returns rows /\
    sampleResults = VArr items /\
    length rows = S (length items).
Proof.
  eexists. 
  destruct (PollChart_rows_follow_entries (fun v => v) sampleResults
              [chartHeader;
               VArr [VStr "Tabs"; VNum 3; VNum 3; VStr COLOR];
               VArr [VStr "Spaces"; VNum 1; VNum 1; VStr COLOR]])
    as (items & Hitems & Hlen & _).
  - reflexivity.
  - exists items. split; [reflexivity |]. split; [exact Hitems | exact Hlen].
Defined.

Lemma PollChart_builds_iff_every_entry_has_option_witness :
  (exists rows, PollChart (fun v => v) sampleResults = Returns rows) /\
  ~ (exists rows,
       PollChart (fun v => v)
         (VArr [resultEntry "Tabs" 3; VObj {[ "votes" := VNum 1 ]}]) = Returns rows).
Proof.
  split.
  - apply (PollChart_builds_iff_every_entry_has_option (fun v => v) sampleResults).
    eexists. split; [reflexivity |]. repeat constructor.
  - intros Hrows.
    apply (PollChart_builds_iff_every_entry_has_option (fun v => v)) in Hrows
      as (items & [= <-] & HF).
    inversion HF as [| ? ? _ HF']. inversion HF' as [| ? ? Hn _]. discriminate.
Defined.

Lemma length_gt_zero_cases (coerced_gt_zero : value -> bool) (v : value) :
  (nullish v = true /\ length_gt_zero coerced_gt_zero v = Throws TypeError) \/
  (nullish v = false /\ exists b, length_gt_zero coerced_gt_zero v = Returns b).
Proof.
  destruct v; simpl; try (left; split; reflexivity); right; split; eauto.
Qed.

Lemma length_gt_zero_true (coerced_gt_zero : value -> bool) (v : value) :
  length_gt_zero coerced_gt_zero v = Returns true ->
  nullish v = false /\ v <> VArr [].
Proof.
  destruct v as [ | | b | n | s | items | props]; simpl; try discriminate;
    intros H; split; try done.
  intros [= ->]. discriminate.
Qed.

Lemma error_message_returns (err : value) :
  truthy err = true -> member err "message" = Returns (own_property err "message").
Proof. intros Ht. by apply member_returns, truthy_not_nullish. Qed.

(** X8. [Result] throws exactly when [data] is present but has no
    [poll_results] (null, undefined or missing), and then it throws a
    TypeError whatever [loading] and [error] are: the test of the results
    comes before the tests of [loading] and [error]. *)
Theorem Result_throws_iff_results_missing
  (coerced_gt_zero : value -> bool) (pollId : value) (r : HookResult) :
  (Result coerced_gt_zero pollId r = Throws TypeError <->
   nullish (data r) = false /\
   nullish (own_property (data r) "poll_results") = true) /\
  (forall e, Result coerced_gt_zero pollId r = Throws e -> e = TypeError).
Proof.
  unfold Result, optional_poll_results.
  destruct (nullish (data r)) eqn:Hdata.
  - simpl. destruct (truthy (loading r)); [split; [split |]; [done | intros [? ?]; done | done] |].
    destruct (truthy (error r)) eqn:Herr.
    + rewrite (error_message_returns _ Herr). simpl.
      split; [split |]; [done | intros [? ?]; done | done].
    + split; [split |]; [done | intros [? ?]; done | done].
  - rewrite (member_returns _ _ Hdata). simpl.
    destruct (length_gt_zero_cases coerced_gt_zero (own_property (data r) "poll_results"))
      as [[Hn ->] | [Hn [b ->]]]; simpl.
    + split; [split; done |]. by intros e [= <-].
    + destruct (truthy (loading r)); [split; [split |]; [done | intros [? ?]; congruence | done] |].
      destruct (truthy (error r)) eqn:Herr.
      * rewrite (error_message_returns _ Herr). simpl.
        split; [split |]; [done | intros [? ?]; congruence | done].
      * destruct b; simpl; split; (split || idtac); try done; intros [? ?]; congruence.
Qed.

Lemma Result_throws_iff_results_missing_witness :
  Result (fun _ => false) (VStr "p1")
    (mkHookResult (VObj ∅) (VBool true) VUndefined) = Throws TypeError.
Proof.
  apply (Result_throws_iff_results_missing (fun _ => false) (VStr "p1")
           (mkHookResult (VObj ∅) (VBool true) VUndefined)).
  split; reflexivity.
Defined.

(** X9. When [Result] shows the chart, the hook is neither loading nor
    failed, the chart is handed [data.poll_results], which is neither
    null, undefined nor an empty array, and whenever [PollChart] builds
    its rows from it there is at least one row after the header. *)
Theorem Result_chart_has_results
  (coerced_gt_zero : value -> bool) (pollId : value) (r : HookResult)
  (results : value) :
  Result coerced_gt_zero pollId r = Returns (Chart results) ->
  truthy (loading r) = false /\
  truthy (error r) = false /\
  results = own_property (data r) "poll_results" /\
  nullish results = false /\
  results <> VArr [] /\
  forall (parseInt : value -> value) (rows : list value),
    PollChart parseInt results = Returns rows -> 2 <= length rows.
Proof.
  unfold Result, optional_poll_results.
  destruct (nullish (data r)) eqn:Hdata.
  - simpl. destruct (truthy (loading r)); [discriminate |].
    destruct (truthy (error r)) eqn:Herr; [| discriminate].
    rewrite (error_message_returns _ Herr). discriminate.
  - rewrite (member_returns _ _ Hdata). simpl.
    destruct (length_gt_zero coerced_gt_zero (own_property (data r) "poll_results"))
      as [b | e] eqn:Hlen; simpl; [| discriminate].
    destruct (truthy (loading r)); [discriminate |].
    destruct (truthy (error r)) eqn:Herr.
    { rewrite (error_message_returns _ Herr). discriminate. }
    destruct b; simpl; [| discriminate]. intros [= <-].
    apply length_gt_zero_true in Hlen as [Hn Hne].
    repeat split; try done.
    intros parseInt rows Hrows.
    apply PollChart_returns in Hrows as (items & body & Hitems & Hbody & ->).
    apply mapM_length in Hbody. simpl. rewrite Hbody.
    destruct items as [| entry rest]; [congruence | simpl; lia].
Qed.

Lemma Result_chart_has_results_witness :
  sampleResults <> VArr [] /\
  2 <= length [chartHeader;
               VArr [VStr "Tabs"; VNum 3; VNum 3; VStr COLOR];
               VArr [VStr "Spaces"; VNum 1; VNum 1; VStr COLOR]].
Proof.
  destruct (Result_chart_has_results (fun _ => false) (VStr "p1")
              (settled (VObj {[ "poll_results" := sampleResults ]})) sampleResults)
    as (_ & _ & _ & _ & Hne & Hrows).
  - reflexivity.
  - split; [exact Hne |]. apply (Hrows (fun v => v)). reflexivity.
Defined.

(** X10. Once the hook has settled (not loading, no error), [Result]
    shows the chart for a non-empty array of results, and "No result"
    for an empty array and for absent [data]. *)
Theorem Result_settled_view
  (coerced_gt_zero : value -> bool) (pollId : value) (r : HookResult) :
  truthy (loading r) = false ->
  truthy (error r) = false ->
  (nullish (data r) = true ->
   Result coerced_gt_zero pollId r = Returns NoResult) /\
  (own_property (data r) "poll_results" = VArr [] ->
   Result coerced_gt_zero pollId r = Returns NoResult) /\
  (forall entry rest,
     own_property (data r) "poll_results" = VArr (entry :: rest) ->
     Result coerced_gt_zero pollId r = Returns (Chart (VArr (entry :: rest)))).
Proof.
  intros Hload Herr.
  assert (Hobj : forall v, own_property (data r) "poll_results" = VArr v ->
                           nullish (data r) = false).
  { destruct (data r); simpl; try discriminate. done. }
  unfold Result, optional_poll_results. rewrite Hload, Herr. split; [| split].
  - intros ->. reflexivity.
  - intros Hres. rewrite (Hobj _ Hres), (member_returns _ _ (Hobj _ Hres)), Hres.
    reflexivity.
  - intros entry rest Hres.
    rewrite (Hobj _ Hres), !(member_returns _ _ (Hobj _ Hres)), Hres.
    reflexivity.
Qed.

Lemma Result_settled_view_witness :
  Result (fun _ => false) (VStr "p1") (settled VUndefined) = Returns NoResult /\
  Result (fun _ => false) (VStr "p1")
    (settled (VObj {[ "poll_results" := VArr [] ]})) = Returns NoResult /\
  Result (fun _ => false) (VStr "p1")
    (settled (VObj {[ "poll_results" := sampleResults ]}))
    = Returns (Chart sampleResults).
Proof.
  split; [| split].
  - apply (proj1 (Result_settled_view (fun _ => false) (VStr "p1")
                    (settled VUndefined) eq_refl eq_refl)).
    reflexivity.
  - apply (proj1 (proj2 (Result_settled_view (fun _ => false) (VStr "p1")
                           (settled (VObj {[ "poll_results" := VArr [] ]}))
                           eq_refl eq_refl))).
    reflexivity.
  - apply (proj2 (proj2 (Result_settled_view (fun _ => false) (VStr "p1")
                           (settled (VObj {[ "poll_results" := sampleResults ]}))
                           eq_refl eq_refl))).
    reflexivity.
Defined.

Lemma pollEntry_cases (userId poll : value) :
  (nullish poll = true /\ pollEntry userId poll = Throws TypeError) \/
  (nullish poll = false /\
   pollEntry userId poll =
     Returns (mkPollEntry (own_property poll "id") poll userId (own_property poll "id"))).
Proof.
  unfold pollEntry.
  destruct (member_cases poll "id") as [[Hn ->] | [Hn ->]]; [left | right]; done.
Qed.

(** X11. When [Poll] renders its list, [data.poll] is an array and the
    list has one entry per poll, in the order of the polls: the question
    gets the poll and the user id, and the result gets the id of that
    same poll, which is also the key. *)
Theorem Poll_entries_follow_polls
  (userId : value) (r : HookResult) (entries : list PollEntry) :
  Poll userId r = Returns (PollList (Some entries)) ->
  exists polls,
    own_property (data r) "poll" = VArr polls /\
    length entries = length polls /\
    forall (i : nat) (poll : value),
      polls !! i = Some poll ->
      entries !! i =
        Some (mkPollEntry (own_property poll "id") poll userId (own_property poll "id")).
Proof.
  unfold Poll. destruct (truthy (loading r)); [discriminate |].
  destruct (truthy (error r)) eqn:Herr.
  { rewrite (error_message_returns _ Herr). discriminate. }
  destruct (nullish (data r)) eqn:Hdata; [discriminate |].
  rewrite (member_returns _ _ Hdata). simpl.
  destruct (own_property (data r) "poll") as [ | | b | n | s | polls | props];
    try discriminate.
  destruct (mapM (pollEntry userId) polls) as [ys | e] eqn:Hm; simpl; [| discriminate].
  intros [= ->]. exists polls. split; [reflexivity |].
  split; [by apply mapM_length in Hm |].
  intros i poll Hi. destruct (mapM_lookup _ _ _ _ _ Hm Hi) as (y & Hy & ->).
  destruct (pollEntry_cases userId poll) as [[_ Hc] | [_ Hc]]; rewrite Hc in Hy;
    [discriminate | by injection Hy as <-].
Qed.

Lemma Poll_entries_follow_polls_witness :
  exists polls,
    VArr [samplePoll "p1" "Tabs or spaces?"; samplePoll "p2" "Vim or Emacs?"]
      = VArr polls /\
    length [mkPollEntry (VStr "p1") (samplePoll "p1" "Tabs or spaces?") (VStr "u") (VStr "p1");
            mkPollEntry (VStr "p2") (samplePoll "p2" "Vim or Emacs?") (VStr "u") (VStr "p2")]
      = length polls.
Proof.
  destruct (Poll_entries_follow_polls (VStr "u")
              (settled (VObj {[ "poll" :=
                 VArr [samplePoll "p1" "Tabs or spaces?"; samplePoll "p2" "Vim or Emacs?"] ]}))
              [mkPollEntry (VStr "p1") (samplePoll "p1" "Tabs or spaces?") (VStr "u") (VStr "p1");
               mkPollEntry (VStr "p2") (samplePoll "p2" "Vim or Emacs?") (VStr "u") (VStr "p2")])
    as (polls & Hpolls & Hlen & _).
  - reflexivity.
  - exists polls. split; [exact Hpolls | exact Hlen].
Defined.

(** X12. [Poll] never throws while the query is loading or has failed.
    Otherwise it throws, a TypeError, exactly when [data] is present and
    [data.poll] is not an array or holds a null or undefined entry. *)
Theorem Poll_throws_iff_polls_malformed (userId : value) (r : HookResult) :
  (Poll userId r = Throws TypeError <->
   truthy (loading r) = false /\
   truthy (error r) = false /\
   nullish (data r) = false /\
   forall polls, own_property (data r) "poll" = VArr polls ->
                 exists poll, poll ∈ polls /\ nullish poll = true) /\
  (forall e, Poll userId r = Throws e -> e = TypeError).
Proof.
  assert (Honly : forall x' e', pollEntry userId x' = Throws e' -> e' = TypeError).
  { intros x' e'. destruct (pollEntry_cases userId x') as [[_ ->] | [_ ->]];
      [by intros [= <-] | done]. }
  unfold Poll. destruct (truthy (loading r)).
  { split; [split; [done | intros (? & _); done] | done]. }
  destruct (truthy (error r)) eqn:Herr.
  { rewrite (error_message_returns _ Herr). simpl.
    split; [split; [done | intros (_ & ? & _); done] | done]. }
  destruct (nullish (data r)) eqn:Hdata.
  { split; [split; [done | intros (_ & _ & ? & _); done] | done]. }
  rewrite (member_returns _ _ Hdata). simpl.
  destruct (own_property (data r) "poll") as [ | | b | n | s | polls | props];
    try (split; [split; [intros _; repeat split; done | done] | by intros e [= <-]]).
  destruct (mapM (pollEntry userId) polls) as [ys | e] eqn:Hm; simpl.
  - split; [split; [done |] | done].
    intros (_ & _ & _ & Hbad). destruct (Hbad polls eq_refl) as (poll & Hin & Hn).
    destruct (pollEntry_cases userId poll) as [[_ Hc] | [Hn' _]]; [| congruence].
    rewrite (mapM_throws_at _ _ _ _ Honly Hin Hc) in Hm. discriminate.
  - apply mapM_throws in Hm as (poll & Hin & Hpoll).
    pose proof (Honly _ _ Hpoll) as ->.
    split; [split; [intros _ | done] | by intros e [= <-]].
    repeat split; try done. intros polls' [= <-]. exists poll. split; [done |].
    destruct (pollEntry_cases userId poll) as [[Hn _] | [_ Hc]]; [done | congruence].
Qed.

Lemma Poll_throws_iff_polls_malformed_witness :
  Poll (VStr "u") (settled (VObj {[ "poll" := VArr [samplePoll "p1" "q"; VNull] ]}))
    = Throws TypeError.
Proof.
  apply (Poll_throws_iff_polls_malformed (VStr "u")
           (settled (VObj {[ "poll" := VArr [samplePoll "p1" "q"; VNull] ]}))).
  repeat split. intros polls Hpolls. injection Hpolls as <-.
  exists VNull. split; [| reflexivity].
  apply list_elem_of_further, list_elem_of_here.
Defined.

Lemma buttonState_has_no_option (text style : string) :
  buttonState text style !! "optionId" = None.
Proof.
  unfold buttonState. rewrite lookup_insert_ne by done. by apply lookup_singleton_ne.
Qed.

Lemma submit_without_option (userId : value) (state : gmap string value) (e : FormEvent) :
  truthy (default VUndefined (state !! "optionId")) = false ->
  handlesubmitVote userId state e =
    (buttonState "✋ Select an option and try again" "warning", [PreventDefault]).
Proof. intros Hf. unfold handlesubmitVote. rewrite Hf. reflexivity. Qed.

Lemma submit_after_button_state (userId : value) (text style : string) (e : FormEvent) :
  handlesubmitVote userId (buttonState text style) e =
    (buttonState "✋ Select an option and try again" "warning", [PreventDefault]).
Proof. apply submit_without_option. by rewrite buttonState_has_no_option. Qed.

(** X13. A submit casts no vote, and shows the warning, in every state
    without a fresh selection: the initial state, the state left by any
    earlier submit, the state set when the mutation completes or fails,
    and the state set by the timer.  Each of these replaces the whole
    state, so the option picked before is forgotten. *)
Theorem no_vote_without_fresh_selection
  (userId poll data error : value) (state : gmap string value) (e e' : FormEvent) :
  (forall initial, defaultState poll = Returns initial ->
     handlesubmitVote userId initial e =
       (buttonState "✋ Select an option and try again" "warning", [PreventDefault])) /\
  handlesubmitVote userId (fst (handlesubmitVote userId state e')) e =
    (buttonState "✋ Select an option and try again" "warning", [PreventDefault]) /\
  (truthy data = true \/ truthy error = true ->
   handlesubmitVote userId (fst (voteOutcomeEffect data error state)) e =
     (buttonState "✋ Select an option and try again" "warning", [PreventDefault])) /\
  (forall then_state ms,
     SetTimeout then_state ms ∈ snd (voteOutcomeEffect data error state) ->
     handlesubmitVote userId then_state e =
       (buttonState "✋ Select an option and try again" "warning", [PreventDefault])).
Proof.
  split; [| split; [| split]].
  - intros initial. unfold defaultState.
    destruct (member poll "id") as [pollId | err]; simpl; [| discriminate].
    intros [= <-]. apply submit_without_option. by rewrite lookup_insert_eq.
  - unfold handlesubmitVote at 2.
    destruct (negb (truthy (default VUndefined (state !! "optionId")))); simpl;
      apply submit_after_button_state.
  - intros Hsettled. unfold voteOutcomeEffect.
    destruct (truthy data); simpl; [apply submit_after_button_state |].
    destruct Hsettled as [? | ->]; [done |]. simpl. apply submit_after_button_state.
  - intros then_state ms. unfold voteOutcomeEffect.
    destruct (truthy data); simpl.
    + intros Hin. apply list_elem_of_singleton in Hin. injection Hin as -> _.
      apply submit_after_button_state.
    + destruct (truthy error); simpl; intros Hin; by apply elem_of_nil in Hin.
Qed.

Lemma no_vote_without_fresh_selection_witness :
  handlesubmitVote (VStr "u")
    (<[ "optionId" := VStr "" ]>
     (<[ "pollId" := VStr "p1" ]> (buttonState "🗳 Vote" "primary")))
    (mkFormEvent VNull)
  = (buttonState "✋ Select an option and try again" "warning", [PreventDefault]).
Proof.
  apply (proj1 (no_vote_without_fresh_selection (VStr "u") (samplePoll "p1" "q")
                  VNull VNull ∅ (mkFormEvent VNull) (mkFormEvent VNull))).
  reflexivity.
Defined.

(** X14. Picking an option changes nothing but [optionId] in the state,
    and the submit that follows casts a vote exactly when the picked
    value is truthy; the vote then carries that value and the user id,
    whatever the state was before. *)
Theorem picked_option_is_the_one_voted
  (userId : value) (state : gmap string value) (e e' : FormEvent) (picked : value) :
  member (currentTarget e) "value" = Returns picked ->
  exists selected,
    handleOptionChange state e = Returns (selected, []) /\
    (forall k, k <> "optionId" -> selected !! k = state !! k) /\
    (truthy picked = true ->
     handlesubmitVote userId selected e' =
       (buttonState "🗳️ Submitting" "info",
        [PreventDefault;
         Vote (VObj {[ "variables" :=
                 VObj (<[ "optionId" := picked ]> {[ "userId" := userId ]}) ]})])) /\
    (truthy picked = false ->
     handlesubmitVote userId selected e' =
       (buttonState "✋ Select an option and try again" "warning", [PreventDefault])).
Proof.
  intros Hpick. exists (<[ "optionId" := picked ]> state).
  split; [| split; [| split]].
  - unfold handleOptionChange. rewrite Hpick. reflexivity.
  - intros k Hk. by rewrite lookup_insert_ne.
  - intros Ht. unfold handlesubmitVote. rewrite lookup_insert_eq. simpl.
    rewrite Ht. reflexivity.
  - intros Hf. apply submit_without_option. rewrite lookup_insert_eq. exact Hf.
Qed.

Lemma picked_option_is_the_one_voted_witness :
  exists selected,
    handleOptionChange (buttonState "👍 Done" "success")
      (mkFormEvent (VObj {[ "value" := VStr "o2" ]})) = Returns (selected, []) /\
    handlesubmitVote (VStr "u") selected (mkFormEvent VNull) =
      (buttonState "🗳️ Submitting" "info",
       [PreventDefault;
        Vote (VObj {[ "variables" :=
                VObj (<[ "optionId" := VStr "o2" ]> {[ "userId" := VStr "u" ]}) ]})]).
Proof.
  destruct (picked_option_is_the_one_voted (VStr "u") (buttonState "👍 Done" "success")
              (mkFormEvent (VObj {[ "value" := VStr "o2" ]})) (mkFormEvent VNull)
              (VStr "o2"))
    as (selected & Hsel & _ & Hvote & _).
  - reflexivity.
  - exists selected. split; [exact Hsel | apply Hvote; reflexivity].
Defined.
